(** * magic-copy: the editor of [src/components/ModelLoader.tsx]

    A shallow embedding of the [Editor] and [Renderer] components: the
    scale profile computed from the bitmap, the click / undo / mask-arrival
    handlers over the component state, the effect that builds the model
    request, and the canvas operations issued by the renderer.

    JavaScript numbers are modelled as exact rationals ([Q]): every
    arithmetic expression of the source is kept as written, rounding is
    abstracted.  Equalities between numbers are therefore stated with
    [==] ([Qeq]); they are the ideal values that the floating-point
    results approximate to within rounding.  Rounding can change a
    comparison between two values that are equal or adjacent in exact
    arithmetic, and a value that is converted to an integer; the theorems
    state identities, and the one comparison of the source
    ([d * scale > 1333]) is between values far apart.  Division by zero
    differs in kind ([x / 0] is [0] in [Q], [Infinity] or [NaN] in
    JavaScript); the theorems that divide assume a positive extent. *)

From Stdlib Require Import String ZArith QArith Qminmax List Bool Lia.
Import ListNotations.

Local Open Scope Q_scope.

(** ** Numbers and the scale profile *)

(** [const UPLOAD_IMAGE_SIZE = 1024;] *)
Definition UPLOAD_IMAGE_SIZE : Q := 1024.

(** [const IMAGE_SIZE = 500;] (local to the effect and to [onMaskClick]) *)
Definition IMAGE_SIZE : Q := 500.

(** [ImageBitmap]: only [width] and [height] are read. *)
Record ImageBitmap : Type := mkBitmap {
  width  : Z;
  height : Z
}.

(** The frame supplied by [FrameSizeContext]. *)
Record FrameSize : Type := mkFrame {
  frame_width  : Q;
  frame_height : Q
}.

(** [Math.min] / [Math.max] on the two integer dimensions. *)
Definition Math_min (a b : Z) : Q := inject_Z (Z.min a b).
Definition Math_max (a b : Z) : Q := inject_Z (Z.max a b).

(** [a > b] on numbers. *)
Definition gtb (a b : Q) : bool := negb (Qle_bool a b).

(** [const uploadScale = UPLOAD_IMAGE_SIZE / Math.max(bitmap.height, bitmap.width);] *)
Definition uploadScale (bitmap : ImageBitmap) : Q :=
  UPLOAD_IMAGE_SIZE / Math_max (height bitmap) (width bitmap).

(** The block that appears twice in the source (effect, lines 88-95, and
    [onMaskClick], lines 206-213):
<<
    const d = Math.min(w, h);
    let scale = IMAGE_SIZE / d;
    if (d * scale > 1333) { scale = 1333 / d; }
>> *)
Definition previewScale (bitmap : ImageBitmap) : Q :=
  let w := width bitmap in
  let h := height bitmap in
  let d := Math_min w h in
  let scale := IMAGE_SIZE / d in
  if gtb (d * scale) 1333 then 1333 / d else scale.

(** [svgScale={Math.max(bitmap.height, bitmap.width) / UPLOAD_IMAGE_SIZE}] *)
Definition svgScale (bitmap : ImageBitmap) : Q :=
  Math_max (height bitmap) (width bitmap) / UPLOAD_IMAGE_SIZE.

(** [const scaleToFit = Math.min(frame.width / bitmap.width, frame.height / bitmap.height);] *)
Definition scaleToFit (frame : FrameSize) (bitmap : ImageBitmap) : Q :=
  Qmin (frame_width frame / inject_Z (width bitmap))
       (frame_height frame / inject_Z (height bitmap)).

(** The [modelScale] object literal of the effect. *)
Record ModelScale : Type := mkModelScale {
  onnxScale     : Q;
  maskWidth     : Q;
  maskHeight    : Q;
  ms_scale      : Q;
  ms_uploadScale : Q;
  ms_width      : Z;
  ms_height     : Z
}.

Definition modelScale_of (bitmap : ImageBitmap) : ModelScale :=
  let w := width bitmap in
  let h := height bitmap in
  let scale := previewScale bitmap in
  {| onnxScale      := scale / uploadScale bitmap;
     maskWidth      := inject_Z w * uploadScale bitmap;
     maskHeight     := inject_Z h * uploadScale bitmap;
     ms_scale       := scale;
     ms_uploadScale := uploadScale bitmap;
     ms_width       := w;
     ms_height      := h |}.

(** ** Tensors *)

(** An onnxruntime [Tensor]: only [data] and [dims] are read by this file. *)
Record Tensor : Type := mkTensor {
  data : list Q;
  dims : list Z
}.

(** ** Contour extraction and the mask path *)

Module Contour.

(** Grid-space corner points, directed boundary edges, closed contours. *)
Definition Point : Type := (Z * Z)%type.
Definition Edge : Type := (Point * Point)%type.
Definition Contour : Type := list Point.

Inductive PathCmd : Type :=
| MoveTo (px py : Q)
| LineTo (px py : Q)
| ClosePath.

(** The path data handed to [new Path2D(svg)]; the empty list is the empty
    string. *)
Definition Path : Type := list PathCmd.

Inductive TraceError : Type :=
| DimensionMismatch.

Definition point_eqb (p q : Point) : bool :=
  (fst p =? fst q)%Z && (snd p =? snd q)%Z.

Definition range (n : Z) : list Z := map Z.of_nat (seq 0 (Z.to_nat n)).

Section Extractor.

(** The threshold is a configuration constant of the extractor. *)
Variable threshold : Q.

(** Modelled from the spec: the membership test of the Contour Extractor
    ([lib/mask_utils] is not among the sources).  A grid pixel belongs to
    the mask when it lies inside the grid and its value is [>= threshold]
    (spec 3, "the boundary between probability >= threshold and
    < threshold regions"). *)
Definition inMask (grid : list Q) (w h : Z) (x y : Z) : bool :=
  (0 <=? x)%Z && (x <? w)%Z && (0 <=? y)%Z && (y <? h)%Z &&
  match nth_error grid (Z.to_nat (y * w + x)) with
  | Some v => Qle_bool threshold v
  | None => false
  end.

(** Modelled from the spec: the boundary edges of one mask pixel (spec 4.2,
    "grouping a mask pixel's boundary edges"): a side of the pixel is a
    boundary edge when the neighbour across it is not in the mask.  Edges
    run clockwise around the pixel (y grows downwards), so outer boundaries
    are clockwise and hole boundaries counter-clockwise. *)
Definition pixelEdges (grid : list Q) (w h : Z) (x y : Z) : list Edge :=
  let up    : Edge := ((x, y), (x + 1, y))%Z in
  let right : Edge := ((x + 1, y), (x + 1, y + 1))%Z in
  let down  : Edge := ((x + 1, y + 1), (x, y + 1))%Z in
  let left  : Edge := ((x, y + 1), (x, y))%Z in
  if inMask grid w h x y then
    (if inMask grid w h x (y - 1)%Z then [] else [up]) ++
    (if inMask grid w h (x + 1)%Z y then [] else [right]) ++
    (if inMask grid w h x (y + 1)%Z then [] else [down]) ++
    (if inMask grid w h (x - 1)%Z y then [] else [left])
  else [].

(** Modelled from the spec: one linear pass over the grid collecting the
    boundary edges (spec 4.2, "a single linear pass plus boundary walk"). *)
Definition boundaryEdges (grid : list Q) (w h : Z) : list Edge :=
  flat_map (fun y => flat_map (fun x => pixelEdges grid w h x y) (range w))
           (range h).

(** The first edge leaving [p], and the edges that remain. *)
Fixpoint takeFrom (p : Point) (es : list Edge) : option (Edge * list Edge) :=
  match es with
  | [] => None
  | e :: rest =>
      if point_eqb (fst e) p then Some (e, rest)
      else match takeFrom p rest with
           | Some (e', rest') => Some (e', e :: rest')
           | None => None
           end
  end.

(** Modelled from the spec: the boundary walk.  From [cur], follow edges
    until the walk is back at [start]; [acc] holds the points visited so
    far, most recent first. *)
Fixpoint follow (fuel : nat) (start cur : Point) (es : list Edge)
    (acc : list Point) : Contour * list Edge :=
  match fuel with
  | O => (rev acc, es)
  | S fuel' =>
      if point_eqb cur start then (rev acc, es)
      else match takeFrom cur es with
           | None => (rev acc, es)
           | Some (e, es') => follow fuel' start (snd e) es' (cur :: acc)
           end
  end.

(** Modelled from the spec: grouping the boundary edges into connected
    closed loops (spec 4.2). *)
Fixpoint loops (fuel : nat) (es : list Edge) : list Contour :=
  match fuel with
  | O => []
  | S fuel' =>
      match es with
      | [] => []
      | e :: rest =>
          let '(c, rest') := follow (length rest) (fst e) (snd e) rest [fst e] in
          c :: loops fuel' rest'
      end
  end.

(** Modelled from the spec: the Contour Extractor (spec 4.2 and 7): a grid
    whose data does not have [w * h] entries fails with
    [DimensionMismatch]; otherwise the contours are the loops of the
    boundary edges. *)
Definition extractContours (grid : list Q) (w h : Z)
    : TraceError + list Contour :=
  if (0 <=? w)%Z && (0 <=? h)%Z && (Z.of_nat (length grid) =? w * h)%Z then
    let es := boundaryEdges grid w h in
    inr (loops (length es) es)
  else inl DimensionMismatch.

(** Modelled from the spec: the Mask Path Builder (spec 4.3): every contour
    becomes one closed sub-path, its points multiplied by the target
    scale; grouping and order are preserved. *)
Definition contourPath (scale : Q) (c : Contour) : Path :=
  match c with
  | [] => []
  | p :: ps =>
      MoveTo (inject_Z (fst p) * scale) (inject_Z (snd p) * scale)
      :: map (fun q => LineTo (inject_Z (fst q) * scale) (inject_Z (snd q) * scale)) ps
      ++ [ClosePath]
  end.

Definition buildPath (scale : Q) (cs : list Contour) : Path :=
  flat_map (contourPath scale) cs.

(** Modelled from the spec: [traceOnnxMaskToSVG] of [lib/mask_utils], which
    is not among the sources: contours of the grid, as one path in grid
    coordinates (the renderer applies the scale as a canvas transform). *)
Definition traceOnnxMaskToSVG (maskData : list Q) (w h : Z)
    : TraceError + Path :=
  match extractContours maskData w h with
  | inl err => inl err
  | inr cs => inr (buildPath 1 cs)
  end.

(** Modelled from the spec: the tracer called with dimensions that may be
    [undefined] (an index past the end of [dims] reads as [undefined] and
    is passed on as it is).  No grid has an undeclared width or height, so
    the data cannot match the declared dimensions (spec 7). *)
Definition traceOnnxMaskToSVG_opt (maskData : list Q) (w h : option Z)
    : TraceError + Path :=
  match w, h with
  | Some w', Some h' => traceOnnxMaskToSVG maskData w' h'
  | _, _ => inl DimensionMismatch
  end.

End Extractor.

End Contour.

(** ** The renderer *)

Inductive Mode : Type :=
| edit
| preview.

Definition mode_eqb (a b : Mode) : bool :=
  match a, b with
  | edit, edit | preview, preview => true
  | _, _ => false
  end.

(** The calls made on a [CanvasRenderingContext2D], in program order. *)
Inductive CanvasOp : Type :=
| Save
| Restore
| ClearRect (x y w h : Q)
| SetTransform (a b c d e f : Q)
| DrawImage (image : ImageBitmap) (dx dy : Q)
| FillStyle (style : string)
| GlobalCompositeOperation (op : string)
| Fill (path : Contour.Path).

(** A rendered image is identified with the operations that painted the
    canvas it was exported from. *)
Definition Blob : Type := list CanvasOp.

(** What one run of the renderer's effect does: the operations on the
    visible canvas, the canvas content exported through [onRenderedImage]
    (if any), and the error thrown by the path tracer (if any). *)
Record RenderPass : Type := mkRenderPass {
  canvas_ops : list CanvasOp;
  exported   : option Blob;
  thrown     : option Contour.TraceError
}.

Definition is_fill (op : CanvasOp) : bool :=
  match op with
  | Fill _ => true
  | _ => false
  end.

(** The renderer paints a selection when some [fill] is issued with a
    non-empty path. *)
Definition paints_selection (ops : list CanvasOp) : bool :=
  existsb (fun op => match op with
                     | Fill (_ :: _) => true
                     | _ => false
                     end) ops.

(** The canvas element behind [canvasRef.current]: its [width] and
    [height] are the element's integer size, read back from the DOM (the
    conversion of the JSX attributes of lines 298-299 into that size is
    the platform's). *)
Record HTMLCanvasElement : Type := mkCanvas {
  canvas_width  : Z;
  canvas_height : Z
}.

Section Rendering.

Variable threshold : Q.

(** The effect of [Renderer] (lines 248-293), on the canvas element held
    by the ref; the element and its contexts are taken to exist.
    [tensor.dims[1]] and [tensor.dims[0]] are passed to the tracer as they
    are read, as the grid's width and height. *)
Definition Renderer_effect (canvas : HTMLCanvasElement) (tensor : option Tensor)
    (image : ImageBitmap) (canvasScale svgScale : Q) (mode : Mode) : RenderPass :=
  let base :=
    [ Save;
      ClearRect 0 0 (inject_Z (canvas_width canvas)) (inject_Z (canvas_height canvas));
      SetTransform canvasScale 0 0 canvasScale 0 0;
      DrawImage image 0 0 ] in
  match tensor with
  | None => mkRenderPass (base ++ [Restore]) None None
  | Some t =>
      let svg :=
        Contour.traceOnnxMaskToSVG_opt threshold (data t)
          (nth_error (dims t) 1) (nth_error (dims t) 0) in
      match svg with
      | inl err => mkRenderPass base None (Some err)
      | inr path =>
          let scale := canvasScale * svgScale in
          let overlay :=
            match mode with
            | edit =>
                [ FillStyle "rgba(0, 0, 255, 0.4)";
                  GlobalCompositeOperation "color-dodge";
                  Fill path ]
            | preview =>
                [ FillStyle "rgba(0, 0, 0, 1)";
                  GlobalCompositeOperation "destination-in";
                  Fill path ]
            end in
          let ops :=
            base ++ [SetTransform scale 0 0 scale 0 0] ++ overlay ++ [Restore] in
          match mode with
          | edit =>
              let offscreen :=
                [ SetTransform canvasScale 0 0 canvasScale 0 0;
                  DrawImage image 0 0;
                  SetTransform scale 0 0 scale 0 0;
                  FillStyle "rgba(0, 0, 0, 1)";
                  GlobalCompositeOperation "destination-in";
                  Fill path ] in
              mkRenderPass ops (Some offscreen) None
          | preview => mkRenderPass ops (Some ops) None
          end
      end
  end.

End Rendering.

(** ** The editor *)

(** An entry of the [clicks] state. *)
Record Click : Type := mkClick {
  click_x : Q;
  click_y : Q
}.

(** An entry of the [clicks] array handed to [modelData]. *)
Record ModelClick : Type := mkModelClick {
  mc_x      : Q;
  mc_y      : Q;
  mc_width  : option Q;
  mc_height : option Q;
  clickType : Z
}.

(** The argument of [modelData]. *)
Record ModelDataArgs : Type := mkModelDataArgs {
  md_clicks      : list ModelClick;
  md_tensor      : Tensor;
  md_modelScale  : ModelScale;
  last_pred_mask : option Tensor
}.

(** [event.data] of a message posted by the sandbox in answer to a
    request: it carries an output and a mask.  The listener is on [window]
    and would run on any other message as well; such messages are outside
    this model. *)
Record MessageData : Type := mkMessageData {
  msg_output : Tensor;
  msg_mask   : Tensor
}.

(** The five [useState] cells of [Editor]. *)
Record EditorState : Type := mkEditorState {
  output    : option Tensor;
  predMasks : list Tensor;
  clicks    : list Click;
  mode      : Mode;
  rendered  : option Blob
}.

(** [sandboxRef.current] and its [contentWindow]. *)
Inductive SandboxRef : Type :=
| NoFrame
| Frame (contentWindow : bool).

(** Props of [Editor], the frame from the context, and the ref. *)
Record Env : Type := mkEnv {
  tensor     : Tensor;
  bitmap     : ImageBitmap;
  frame      : FrameSize;
  sandboxRef : SandboxRef
}.

(** The coordinates read by the canvas's [onClick]. *)
Record MouseEvent : Type := mkMouseEvent {
  clientX   : Q;
  clientY   : Q;
  rect_left : Q;
  rect_top  : Q
}.

(** The state of a freshly mounted [Editor]. *)
Definition initialState : EditorState :=
  {| output := None; predMasks := []; clicks := []; mode := edit; rendered := None |}.

Definition setOutput (v : option Tensor) (s : EditorState) : EditorState :=
  {| output := v; predMasks := predMasks s; clicks := clicks s;
     mode := mode s; rendered := rendered s |}.

Definition setPredMasks (v : list Tensor) (s : EditorState) : EditorState :=
  {| output := output s; predMasks := v; clicks := clicks s;
     mode := mode s; rendered := rendered s |}.

Definition setClicks (v : list Click) (s : EditorState) : EditorState :=
  {| output := output s; predMasks := predMasks s; clicks := v;
     mode := mode s; rendered := rendered s |}.

Definition setMode (v : Mode) (s : EditorState) : EditorState :=
  {| output := output s; predMasks := predMasks s; clicks := clicks s;
     mode := v; rendered := rendered s |}.

Definition setRendered (v : option Blob) (s : EditorState) : EditorState :=
  {| output := output s; predMasks := predMasks s; clicks := clicks s;
     mode := mode s; rendered := v |}.

(** [predMasks.length > 0 ? predMasks[predMasks.length - 1] : null] *)
Definition lastMask (masks : list Tensor) : option Tensor :=
  if (0 <? length masks)%nat then nth_error masks (length masks - 1) else None.

(** The message listener (lines 76-79). *)
Definition listener (s : EditorState) (d : MessageData) : EditorState :=
  setPredMasks (predMasks s ++ [msg_mask d]) (setOutput (Some (msg_output d)) s).

(** The click appended by [onMaskClick] (line 216). *)
Definition maskClick (env : Env) (x y : Q) : Click :=
  let scale := previewScale (bitmap env) in
  let scaleToFit := scaleToFit (frame env) (bitmap env) in
  {| click_x := (x * scale) / scaleToFit; click_y := (y * scale) / scaleToFit |}.

(** The state update of [onMaskClick] (lines 214-217). *)
Definition onMaskClick (env : Env) (x y : Q) (s : EditorState) : EditorState :=
  setClicks (clicks s ++ [maskClick env x y]) s.

(** The state update of the Undo button (line 158):
    [setClicks([...clicks.slice(0, clicks.length - 1)])]. *)
Definition undoClicks (s : EditorState) : EditorState :=
  setClicks (firstn (length (clicks s) - 1) (clicks s)) s.

(** The object built for each click (lines 111-117). *)
Definition modelClick_of (click : Click) : ModelClick :=
  {| mc_x := click_x click; mc_y := click_y click;
     mc_width := None; mc_height := None; clickType := 1 |}.

(** The arguments built for [modelData] (lines 110-122). *)
Definition requestArgs (env : Env) (s : EditorState) : ModelDataArgs :=
  {| md_clicks := map modelClick_of (clicks s);
     md_tensor := tensor env;
     md_modelScale := modelScale_of (bitmap env);
     last_pred_mask := lastMask (predMasks s) |}.

(** What a run of the request effect did. *)
Inductive EffectResult (Feeds : Type) : Type :=
| NoSandbox
| Cleared
| NoFeeds (args : ModelDataArgs)
| NoWindow (args : ModelDataArgs) (feeds : Feeds)
| Posted (args : ModelDataArgs) (feeds : Feeds).

Arguments NoSandbox {Feeds}.
Arguments Cleared {Feeds}.
Arguments NoFeeds {Feeds} args.
Arguments NoWindow {Feeds} args feeds.
Arguments Posted {Feeds} args feeds.

Section Editor.

(** [modelData] of [lib/models] and the sandboxed model behind the iframe
    are not among the sources; they are parameters: [modelData] turns the
    arguments into the posted feeds (or a falsy value), [runModel] is the
    answer the sandbox posts back for given feeds. *)
Variable Feeds : Type.
Variable modelData : ModelDataArgs -> option Feeds.
Variable runModel : Feeds -> MessageData.

(** The request effect (lines 84-127), run after a render in which
    [clicks] changed. *)
Definition Editor_effect (env : Env) (s : EditorState)
    : EditorState * EffectResult Feeds :=
  match sandboxRef env with
  | NoFrame => (s, NoSandbox)
  | Frame contentWindow =>
      if (length (clicks s) =? 0)%nat then
        (setPredMasks [] (setOutput None s), Cleared)
      else
        let args := requestArgs env s in
        match modelData args with
        | None => (s, NoFeeds args)
        | Some feeds =>
            if contentWindow then (s, Posted args feeds)
            else (s, NoWindow args feeds)
        end
  end.

(** A request posted to the sandbox and not answered yet.  [sent_len] is
    the length of the click list when it was posted and [sent_args] the
    arguments it was built from; the source keeps neither. *)
Record Pending : Type := mkPending {
  sent_len   : nat;
  sent_args  : ModelDataArgs;
  sent_feeds : Feeds
}.

(** The component state together with the requests in flight. *)
Record Session : Type := mkSession {
  editor  : EditorState;
  pending : list Pending
}.

Definition initialSession : Session :=
  {| editor := initialState; pending := [] |}.

(** What can happen to a mounted editor. *)
Inductive Event : Type :=
| CanvasClick (e : MouseEvent)
| UndoButton
| ModeButton (m : Mode)
| RenderedImage (b : option Blob)
| Deliver (i : nat).

(** What a step did that is visible to the model collaborator. *)
Inductive Label : Type :=
| Sent (args : ModelDataArgs)
| Received (mask : Tensor)
| HistoryCleared.

(** A render in which [clicks] changed, followed by the request effect. *)
Definition afterClicksChange (env : Env) (sess : Session) (s : EditorState)
    : Session * list Label :=
  match Editor_effect env s with
  | (s', Posted args feeds) =>
      ({| editor := s';
          pending := pending sess ++
                     [{| sent_len := length (clicks s);
                         sent_args := args;
                         sent_feeds := feeds |}] |},
       [Sent args])
  | (s', Cleared) => ({| editor := s'; pending := pending sess |}, [HistoryCleared])
  | (s', _) => ({| editor := s'; pending := pending sess |}, [])
  end.

(** The canvas's [onClick] (lines 300-306). *)
Definition canvasOnClick (env : Env) (sess : Session) (e : MouseEvent)
    : Session * list Label :=
  let s := editor sess in
  if negb (mode_eqb (mode s) edit) then (sess, [])
  else
    let x := clientX e - rect_left e in
    let y := clientY e - rect_top e in
    afterClicksChange env sess (onMaskClick env x y s).

(** The Undo button (lines 157-162); it is disabled on an empty click
    list. *)
Definition undo (env : Env) (sess : Session) : Session * list Label :=
  let s := editor sess in
  if (length (clicks s) =? 0)%nat then (sess, [])
  else afterClicksChange env sess (undoClicks s).

(** The sandbox answers the [i]-th request in flight: the listener runs on
    the answer. *)
Definition deliver (sess : Session) (i : nat) : Session * list Label :=
  match nth_error (pending sess) i with
  | None => (sess, [])
  | Some p =>
      let d := runModel (sent_feeds p) in
      ({| editor := listener (editor sess) d;
          pending := firstn i (pending sess) ++ skipn (S i) (pending sess) |},
       [Received (msg_mask d)])
  end.

Definition step (env : Env) (sess : Session) (ev : Event)
    : Session * list Label :=
  match ev with
  | CanvasClick e => canvasOnClick env sess e
  | UndoButton => undo env sess
  | ModeButton m =>
      ({| editor := setMode m (editor sess); pending := pending sess |}, [])
  | RenderedImage b =>
      ({| editor := setRendered b (editor sess); pending := pending sess |}, [])
  | Deliver i => deliver sess i
  end.

(** A run: the final session and everything sent, received and cleared on
    the way, in order. *)
Fixpoint run (env : Env) (sess : Session) (evs : list Event)
    : Session * list Label :=
  match evs with
  | [] => (sess, [])
  | ev :: evs' =>
      let '(sess', l) := step env sess ev in
      let '(sess'', l') := run env sess' evs' in
      (sess'', l ++ l')
  end.


End Editor.

Arguments mkPending {Feeds} sent_len sent_args sent_feeds.
Arguments sent_len {Feeds} p.
Arguments sent_args {Feeds} p.
Arguments sent_feeds {Feeds} p.
Arguments mkSession {Feeds} editor pending.
Arguments editor {Feeds} s.
Arguments pending {Feeds} s.
Arguments initialSession {Feeds}.
Arguments Editor_effect {Feeds} modelData env s.
Arguments afterClicksChange {Feeds} modelData env sess s.
Arguments canvasOnClick {Feeds} modelData env sess e.
Arguments undo {Feeds} modelData env sess.
Arguments deliver {Feeds} runModel sess i.
Arguments step {Feeds} modelData runModel env sess ev.
Arguments run {Feeds} modelData runModel env sess evs.

(** ** Reading the log of a run *)

(** The most recent entry of a mask history, [None] on an empty one. *)
Definition mostRecent (masks : list Tensor) : option Tensor :=
  last (map Some masks) None.

(** The code's mask history after a log: a received mask is appended, a
    clearing empties it. *)
Fixpoint historyAfter (h : list Tensor) (ls : list Label) : list Tensor :=
  match ls with
  | [] => h
  | Sent _ :: ls' => historyAfter h ls'
  | Received m :: ls' => historyAfter (h ++ [m]) ls'
  | HistoryCleared :: ls' => historyAfter [] ls'
  end.

(** Every request of the log passes the most recent mask received since the
    history was last cleared ([h] is the history before the log). *)
Fixpoint feedbackFromHistory (h : list Tensor) (ls : list Label) : Prop :=
  match ls with
  | [] => True
  | Sent args :: ls' =>
      last_pred_mask args = mostRecent h /\ feedbackFromHistory h ls'
  | Received m :: ls' => feedbackFromHistory (h ++ [m]) ls'
  | HistoryCleared :: ls' => feedbackFromHistory [] ls'
  end.

(** The reading of the specification: every request of the log passes the
    most recently received mask, [None] only when none was received yet
    ([seen] are the masks received before the log); nothing ever empties
    what was received. *)
Fixpoint feedbackIsLastReceived (seen : list Tensor) (ls : list Label) : Prop :=
  match ls with
  | [] => True
  | Sent args :: ls' =>
      last_pred_mask args = mostRecent seen /\ feedbackIsLastReceived seen ls'
  | Received m :: ls' => feedbackIsLastReceived (seen ++ [m]) ls'
  | HistoryCleared :: ls' => feedbackIsLastReceived seen ls'
  end.

(** The reading of the specification of [addClick]: the canvas point, with
    the canvas scale removed, multiplied by [uploadScale]. *)
Definition toModelInput (env : Env) (x y : Q) : Click :=
  let scaleToFit := scaleToFit (frame env) (bitmap env) in
  {| click_x := (x / scaleToFit) * uploadScale (bitmap env);
     click_y := (y / scaleToFit) * uploadScale (bitmap env) |}.

(** ** A concrete session *)

Module Demo.

(** A 1000 x 1000 bitmap shown in a 1000 x 1000 frame, sandbox mounted. *)
Definition env : Env :=
  {| tensor := mkTensor [] [1; 256; 64; 64]%Z;
     bitmap := mkBitmap 1000 1000;
     frame := mkFrame 1000 1000;
     sandboxRef := Frame true |}.

(** [modelData] that posts its arguments as they are. *)
Definition modelData (args : ModelDataArgs) : option ModelDataArgs := Some args.

(** A sandbox whose answer records how many clicks the request had: the
    output is a 1 x 1 grid holding that number, the mask a 1 x 1 grid
    holding its opposite. *)
Definition runModel (feeds : ModelDataArgs) : MessageData :=
  let n := inject_Z (Z.of_nat (length (md_clicks feeds))) in
  {| msg_output := mkTensor [n] [1; 1]%Z;
     msg_mask := mkTensor [- n] [1; 1]%Z |}.

Definition step := step modelData runModel.
Definition run := run modelData runModel.
Definition deliver := deliver runModel.

(** Canvas clicks at (10, 20) and (30, 40), the canvas at the origin. *)
Definition c1 : Event := CanvasClick (mkMouseEvent 10 20 0 0).
Definition c2 : Event := CanvasClick (mkMouseEvent 30 40 0 0).

(** The answers of the sandbox to a request with one click and to a
    request with two. *)
Definition M1 : Tensor := mkTensor [1] [1; 1]%Z.
Definition M2 : Tensor := mkTensor [2] [1; 1]%Z.

(** A short extent: 100 wide, 1000 high. *)
Definition tall : ImageBitmap := mkBitmap 100 1000.

End Demo.

(** ** The toolbar *)

(** The Copy and Download buttons (lines 163-188): both return at once
    without a rendered image, and otherwise hand [rendered] on (to the
    clipboard, to the download link). *)
Definition copyButton (s : EditorState) : option Blob := rendered s.
Definition downloadButton (s : EditorState) : option Blob := rendered s.

(** ** Classifying events and canvas operations *)

Definition changesClicks (ev : Event) : bool :=
  match ev with
  | CanvasClick _ | UndoButton => true
  | _ => false
  end.

Definition isModeButton (ev : Event) : bool :=
  match ev with
  | ModeButton _ => true
  | _ => false
  end.

Definition isRenderedImage (ev : Event) : bool :=
  match ev with
  | RenderedImage _ => true
  | _ => false
  end.

Definition isSent (l : Label) : bool :=
  match l with
  | Sent _ => true
  | _ => false
  end.

Definition isHistoryCleared (l : Label) : bool :=
  match l with
  | HistoryCleared => true
  | _ => false
  end.

(** The cutout: the image at canvas scale, then the path filled in opaque
    black under [destination-in] at the path's scale. *)
Definition cutout (image : ImageBitmap) (canvasScale scale : Q)
    (path : Contour.Path) : list CanvasOp :=
  [ SetTransform canvasScale 0 0 canvasScale 0 0;
    DrawImage image 0 0;
    SetTransform scale 0 0 scale 0 0;
    FillStyle "rgba(0, 0, 0, 1)";
    GlobalCompositeOperation "destination-in";
    Fill path ].

Definition count_op (f : CanvasOp -> bool) (ops : list CanvasOp) : nat :=
  length (filter f ops).

Definition is_save (op : CanvasOp) : bool :=
  match op with
  | Save => true
  | _ => false
  end.

Definition is_restore (op : CanvasOp) : bool :=
  match op with
  | Restore => true
  | _ => false
  end.

Definition is_overlay_blend (op : CanvasOp) : bool :=
  match op with
  | GlobalCompositeOperation "color-dodge" => true
  | _ => false
  end.

(** * Properties *)

(** ** The scale profile *)

Lemma Math_max_pos (a b : Z) : (0 < a)%Z -> (0 < b)%Z -> 0 < Math_max a b.
Proof.
  intros Ha Hb. unfold Math_max.
  replace 0 with (inject_Z 0) by reflexivity.
  rewrite <- Zlt_Qlt. lia.
Qed.

Lemma uploadScale_pos (bm : ImageBitmap) :
  (0 < width bm)%Z -> (0 < height bm)%Z -> 0 < uploadScale bm.
Proof.
  intros Hw Hh. unfold uploadScale, Qdiv.
  apply Qmult_lt_0_compat; [reflexivity|].
  apply Qinv_lt_0_compat, Math_max_pos; assumption.
Qed.

Lemma Qpos_neq0 (q : Q) : 0 < q -> ~ q == 0.
Proof.
  intros Hq Heq. rewrite Heq in Hq. discriminate Hq.
Qed.

(** The guard [d * scale > 1333] compares the smaller dimension times a
    scale that was just obtained by dividing by it: the product is 500 (or
    0 on an empty extent), so the guard is never taken. *)
Lemma guard_never_taken (d : Q) : gtb (d * (IMAGE_SIZE / d)) 1333 = false.
Proof.
  unfold gtb. apply negb_false_iff, Qle_bool_iff.
  destruct (Qeq_dec d 0) as [Hz | Hnz].
  - rewrite Hz. discriminate.
  - rewrite Qmult_div_r by exact Hnz. discriminate.
Qed.

(** On every bitmap the preview scale is the unclamped one. *)
Lemma previewScale_unclamped (bm : ImageBitmap) :
  previewScale bm = IMAGE_SIZE / Math_min (width bm) (height bm).
Proof.
  unfold previewScale. cbv zeta. rewrite guard_never_taken. reflexivity.
Qed.

(** C1 (the code at a failing input).  On the 100 x 1000 bitmap the
    min-dimension scale 500 / 100 pushes the larger dimension to 5000,
    above the ceiling 1333, yet the scale the code computes is still 5:
    the larger dimension times the scale is 5000, not 1333. *)
Theorem C1_ceiling_not_applied :
  gtb (Math_max (height Demo.tall) (width Demo.tall)
       * (IMAGE_SIZE / Math_min (width Demo.tall) (height Demo.tall))) 1333 = true
  /\ previewScale Demo.tall == 5
  /\ Math_max (height Demo.tall) (width Demo.tall) * previewScale Demo.tall == 5000
  /\ ~ Math_max (height Demo.tall) (width Demo.tall) * previewScale Demo.tall == 1333.
Proof.
  repeat split; try reflexivity.
  intros H. vm_compute in H. discriminate H.
Qed.

(** C7.  On every bitmap with positive dimensions, [onnxScale] is the
    preview scale divided by [uploadScale], and mapping a coordinate
    original -> model input (times [uploadScale]) and then model input ->
    mask grid (times [onnxScale]) is the direct mapping original -> mask
    grid (times the preview scale). *)
Theorem C7_scale_composition (bm : ImageBitmap) (p : Q) :
  (0 < width bm)%Z -> (0 < height bm)%Z ->
  onnxScale (modelScale_of bm) = previewScale bm / uploadScale bm
  /\ ms_scale (modelScale_of bm) = previewScale bm
  /\ ms_uploadScale (modelScale_of bm) = uploadScale bm
  /\ (p * ms_uploadScale (modelScale_of bm)) * onnxScale (modelScale_of bm)
     == p * ms_scale (modelScale_of bm).
Proof.
  intros Hw Hh. repeat split.
  cbn [modelScale_of onnxScale ms_scale ms_uploadScale].
  pose proof (Qpos_neq0 _ (uploadScale_pos bm Hw Hh)) as Hu.
  field. exact Hu.
Qed.

Lemma C7_scale_composition_witness :
  (0 < width (mkBitmap 640 480))%Z /\ (0 < height (mkBitmap 640 480))%Z
  /\ (7 * ms_uploadScale (modelScale_of (mkBitmap 640 480)))
       * onnxScale (modelScale_of (mkBitmap 640 480))
     == 7 * ms_scale (modelScale_of (mkBitmap 640 480)).
Proof.
  split; [reflexivity|]. split; [reflexivity|].
  apply (C7_scale_composition (mkBitmap 640 480) 7); reflexivity.
Defined.



(** ** Contours of a grid below the threshold *)

Lemma flat_map_all_nil {A B : Type} (f : A -> list B) (l : list A) :
  (forall a, f a = []) -> flat_map f l = [].
Proof.
  intros Hf. induction l as [| a l IH]; cbn.
  - reflexivity.
  - rewrite Hf, IH. reflexivity.
Qed.

Lemma inMask_below (threshold : Q) (grid : list Q) (w h x y : Z) :
  Forall (fun v => v < threshold) grid ->
  Contour.inMask threshold grid w h x y = false.
Proof.
  intros Hall. unfold Contour.inMask.
  destruct (nth_error grid (Z.to_nat (y * w + x))) as [v |] eqn:Hnth.
  - apply nth_error_In in Hnth.
    rewrite Forall_forall in Hall. specialize (Hall v Hnth).
    destruct (Qle_bool threshold v) eqn:Hle.
    + apply Qle_bool_iff in Hle. exfalso. exact (Qlt_not_le _ _ Hall Hle).
    + apply andb_false_r.
  - apply andb_false_r.
Qed.

Lemma boundaryEdges_below (threshold : Q) (grid : list Q) (w h : Z) :
  Forall (fun v => v < threshold) grid ->
  Contour.boundaryEdges threshold grid w h = [].
Proof.
  intros Hall. unfold Contour.boundaryEdges.
  apply flat_map_all_nil. intros y.
  apply flat_map_all_nil. intros x.
  unfold Contour.pixelEdges. cbv zeta.
  rewrite (inMask_below threshold grid w h x y Hall). reflexivity.
Qed.

(** C8.  For every grid of the declared dimensions whose values are all
    below the threshold, the contour extractor succeeds with no contour,
    the traced path is empty, and the renderer given such a tensor throws
    nothing and paints no selection. *)
Theorem C8_empty_grid (threshold : Q) (t : Tensor) (w h : Z)
    (canvas : HTMLCanvasElement) (image : ImageBitmap) (canvasScale svgScale : Q)
    (mode : Mode) :
  nth_error (dims t) 1 = Some w ->
  nth_error (dims t) 0 = Some h ->
  (0 <= w)%Z -> (0 <= h)%Z ->
  Z.of_nat (length (data t)) = (w * h)%Z ->
  Forall (fun v => v < threshold) (data t) ->
  Contour.extractContours threshold (data t) w h = inr []
  /\ Contour.traceOnnxMaskToSVG threshold (data t) w h = inr []
  /\ thrown (Renderer_effect threshold canvas (Some t) image canvasScale svgScale mode)
     = None
  /\ paints_selection
       (canvas_ops
          (Renderer_effect threshold canvas (Some t) image canvasScale svgScale mode))
     = false.
Proof.
  intros Hd1 Hd0 Hw Hh Hlen Hall.
  assert (Hex : Contour.extractContours threshold (data t) w h = inr []).
  { unfold Contour.extractContours.
    apply Z.leb_le in Hw, Hh. apply Z.eqb_eq in Hlen.
    rewrite Hw, Hh, Hlen. cbn [andb].
    rewrite (boundaryEdges_below threshold (data t) w h Hall). reflexivity. }
  assert (Htr : Contour.traceOnnxMaskToSVG threshold (data t) w h = inr []).
  { unfold Contour.traceOnnxMaskToSVG. rewrite Hex. reflexivity. }
  split; [exact Hex|]. split; [exact Htr|].
  unfold Renderer_effect. cbv zeta. rewrite Hd1, Hd0.
  cbn [Contour.traceOnnxMaskToSVG_opt]. rewrite Htr.
  destruct mode; split; reflexivity.
Qed.

Lemma C8_empty_grid_witness :
  Contour.traceOnnxMaskToSVG (1 # 2) (data (mkTensor [0; 0; 0; 0; 0; 0] [2; 3]%Z)) 3 2
  = inr [].
Proof.
  apply (C8_empty_grid (1 # 2) (mkTensor [0; 0; 0; 0; 0; 0] [2; 3]%Z) 3 2
           (mkCanvas 3 2) (mkBitmap 3 2) 1 1 edit);
    try reflexivity; try discriminate.
  repeat constructor.
Defined.

(** ** The editor's transitions *)

Section EditorFacts.

Context {Feeds : Type}.
Variable modelData : ModelDataArgs -> option Feeds.
Variable runModel : Feeds -> MessageData.

(** The effect never touches the click list, the mode or the rendered
    image. *)
Lemma effect_frame (env : Env) (s : EditorState) :
  clicks (fst (Editor_effect modelData env s)) = clicks s
  /\ mode (fst (Editor_effect modelData env s)) = mode s
  /\ rendered (fst (Editor_effect modelData env s)) = rendered s.
Proof.
  unfold Editor_effect.
  destruct (sandboxRef env) as [| cw]; [repeat split|].
  destruct (length (clicks s) =? 0)%nat; [repeat split|].
  destruct (modelData (requestArgs env s)); [destruct cw|]; repeat split.
Qed.

(** With the sandbox mounted the effect clears on an empty click list and
    leaves the state alone otherwise. *)
Lemma effect_state (env : Env) (s : EditorState) (cw : bool) :
  sandboxRef env = Frame cw ->
  fst (Editor_effect modelData env s) =
    if (length (clicks s) =? 0)%nat then setPredMasks [] (setOutput None s) else s.
Proof.
  intros Href. unfold Editor_effect. rewrite Href.
  destruct (length (clicks s) =? 0)%nat; [reflexivity|].
  destruct (modelData (requestArgs env s)); [destruct cw|]; reflexivity.
Qed.

Lemma afterClicksChange_editor (env : Env) (sess : Session Feeds) (s : EditorState) :
  editor (fst (afterClicksChange modelData env sess s)) = fst (Editor_effect modelData env s).
Proof.
  unfold afterClicksChange.
  destruct (Editor_effect modelData env s) as [s' r]. destruct r; reflexivity.
Qed.

Lemma length_zero_nil {A : Type} (l : list A) :
  (length l =? 0)%nat = true <-> l = [].
Proof.
  destruct l; cbn; split; intros H; try reflexivity; discriminate H.
Qed.

(** C10.  While the mode is [preview], the canvas's click handler returns
    before [onMaskClick]: the whole session (click list, mask history,
    output, requests in flight) is unchanged and nothing is sent. *)
Theorem C10_preview_click_is_noop (env : Env) (sess : Session Feeds) (e : MouseEvent) :
  mode (editor sess) = preview ->
  canvasOnClick modelData env sess e = (sess, [])
  /\ step modelData runModel env sess (CanvasClick e) = (sess, []).
Proof.
  intros Hmode.
  assert (H : canvasOnClick modelData env sess e = (sess, [])).
  { unfold canvasOnClick. rewrite Hmode. reflexivity. }
  split; [exact H | exact H].
Qed.


(** What a run of the effect after a change of [clicks] leaves behind,
    case by case. *)
Lemma afterClicksChange_cases (env : Env) (sess : Session Feeds) (s : EditorState) :
  (afterClicksChange modelData env sess s = (mkSession s (pending sess), []))
  \/ (clicks s = []
      /\ afterClicksChange modelData env sess s =
           (mkSession (setPredMasks [] (setOutput None s)) (pending sess),
            [HistoryCleared]))
  \/ (exists feeds,
        clicks s <> []
        /\ modelData (requestArgs env s) = Some feeds
        /\ sandboxRef env = Frame true
        /\ afterClicksChange modelData env sess s =
             (mkSession s (pending sess ++
                           [mkPending (length (clicks s)) (requestArgs env s) feeds]),
              [Sent (requestArgs env s)])).
Proof.
  unfold afterClicksChange, Editor_effect.
  destruct (sandboxRef env) as [| cw]; [left; reflexivity|].
  destruct (length (clicks s) =? 0)%nat eqn:Hlen.
  - right; left. apply length_zero_nil in Hlen. split; [exact Hlen | reflexivity].
  - destruct (modelData (requestArgs env s)) as [feeds |] eqn:Hmd; [|left; reflexivity].
    destruct cw; [|left; reflexivity].
    right; right. exists feeds. repeat split.
    intros Hnil. rewrite Hnil in Hlen. discriminate Hlen.
Qed.

(** A step that sends a request sends exactly one, built from the state the
    step ends in, and records it as in flight under the length of the click
    list of that moment. *)
Lemma step_sent (env : Env) (sess sess1 : Session Feeds) (ev : Event)
    (l : list Label) (args : ModelDataArgs) :
  step modelData runModel env sess ev = (sess1, l) ->
  In (Sent args) l ->
  args = requestArgs env (editor sess1)
  /\ l = [Sent args]
  /\ exists feeds,
       modelData args = Some feeds
       /\ pending sess1 =
            pending sess ++ [mkPending (length (clicks (editor sess1))) args feeds].
Proof.
  intros Hstep Hin.
  assert (Hacc : forall s,
            afterClicksChange modelData env sess s = (sess1, l) ->
            args = requestArgs env (editor sess1)
            /\ l = [Sent args]
            /\ exists feeds,
                 modelData args = Some feeds
                 /\ pending sess1 =
                      pending sess ++
                      [mkPending (length (clicks (editor sess1))) args feeds]).
  { intros s Hs.
    destruct (afterClicksChange_cases env sess s)
      as [H | [[_ H] | [feeds [_ [Hmd [_ H]]]]]];
      rewrite H in Hs; injection Hs as <- <-.
    - destruct Hin.
    - destruct Hin as [Hin | []]. discriminate Hin.
    - destruct Hin as [Hin | []]. injection Hin as <-.
      cbn. repeat split. exists feeds. split; [exact Hmd | reflexivity]. }
  destruct ev as [e | | m | b | i]; cbn in Hstep.
  - unfold canvasOnClick in Hstep.
    destruct (negb (mode_eqb (mode (editor sess)) edit)).
    + injection Hstep as _ <-. destruct Hin.
    + exact (Hacc _ Hstep).
  - unfold undo in Hstep.
    destruct (length (clicks (editor sess)) =? 0)%nat.
    + injection Hstep as _ <-. destruct Hin.
    + exact (Hacc _ Hstep).
  - injection Hstep as _ <-. destruct Hin.
  - injection Hstep as _ <-. destruct Hin.
  - unfold deliver in Hstep.
    destruct (nth_error (pending sess) i).
    + injection Hstep as _ <-. destruct Hin as [Hin | []]. discriminate Hin.
    + injection Hstep as _ <-. destruct Hin.
Qed.

(** C2 (amended).  After any step: a request sent by the step is built
    from the whole click list of that moment (its length is the number of
    clicks it carries), and whichever request in flight is answered next,
    whatever the length of the click list was when it was sent, its answer
    is accepted: the output becomes the answer's output, its mask is
    appended to the mask history, and the click list is untouched. *)
Theorem C2_every_answer_accepted (env : Env) (sess sess1 : Session Feeds)
    (ev : Event) (l : list Label) (i : nat) (p : Pending Feeds) :
  step modelData runModel env sess ev = (sess1, l) ->
  nth_error (pending sess1) i = Some p ->
  (forall args, In (Sent args) l ->
     length (md_clicks args) = length (clicks (editor sess1))
     /\ exists q, pending sess1 = pending sess ++ [q]
                  /\ sent_args q = args
                  /\ sent_len q = length (clicks (editor sess1)))
  /\ output (editor (fst (deliver runModel sess1 i)))
     = Some (msg_output (runModel (sent_feeds p)))
  /\ predMasks (editor (fst (deliver runModel sess1 i)))
     = predMasks (editor sess1) ++ [msg_mask (runModel (sent_feeds p))]
  /\ clicks (editor (fst (deliver runModel sess1 i))) = clicks (editor sess1).
Proof.
  intros Hstep Hp. split.
  - intros args Hin.
    destruct (step_sent env sess sess1 ev l args Hstep Hin)
      as [Hargs [_ [feeds [_ Hpend]]]].
    split.
    + rewrite Hargs. cbn. apply length_map.
    + eexists. split; [exact Hpend|]. split; reflexivity.
  - unfold deliver. rewrite Hp. repeat split.
Qed.

(** C3 (amended).  With the sandbox mounted, an undo that leaves the click
    list non-empty drops the last click and changes nothing else: the
    output and the mask history are the ones from before the undo.  The
    request effect runs again on the shorter list: its arguments carry the
    remaining clicks and the most recent mask of the unchanged history, and
    whenever [modelData] yields feeds and the frame has a window the
    request is posted. *)
Theorem C3_undo_keeps_output_and_asks_again (env : Env) (cw : bool)
    (sess : Session Feeds) :
  sandboxRef env = Frame cw ->
  (2 <= length (clicks (editor sess)))%nat ->
  let s1 := undoClicks (editor sess) in
  editor (fst (undo modelData env sess)) = s1
  /\ clicks s1 = removelast (clicks (editor sess))
  /\ clicks s1 <> []
  /\ output s1 = output (editor sess)
  /\ predMasks s1 = predMasks (editor sess)
  /\ md_clicks (requestArgs env s1) = map modelClick_of (removelast (clicks (editor sess)))
  /\ last_pred_mask (requestArgs env s1) = lastMask (predMasks (editor sess))
  /\ (forall feeds,
        modelData (requestArgs env s1) = Some feeds -> cw = true ->
        undo modelData env sess =
          (mkSession s1 (pending sess ++
                         [mkPending (length (clicks s1)) (requestArgs env s1) feeds]),
           [Sent (requestArgs env s1)])).
Proof.
  intros Href Hlen s1.
  assert (Hrem : clicks s1 = removelast (clicks (editor sess))).
  { subst s1. unfold undoClicks. cbn [clicks setClicks].
    destruct (clicks (editor sess)) as [| c cs] using rev_ind.
    - reflexivity.
    - rewrite removelast_last, length_app. cbn [length].
      replace (length cs + 1 - 1)%nat with (length cs) by lia.
      rewrite firstn_app, firstn_all, Nat.sub_diag. cbn. apply app_nil_r. }
  assert (Hne : clicks s1 <> []).
  { rewrite Hrem. destruct (clicks (editor sess)) as [| a [| b cs]].
    - cbn in Hlen. lia.
    - cbn in Hlen. lia.
    - cbn. discriminate. }
  assert (Hlen0 : (length (clicks (editor sess)) =? 0)%nat = false).
  { apply Nat.eqb_neq. lia. }
  assert (Hlen1 : (length (clicks s1) =? 0)%nat = false).
  { destruct (length (clicks s1) =? 0)%nat eqn:E; [|reflexivity].
    apply length_zero_nil in E. contradiction. }
  split.
  { unfold undo. rewrite Hlen0. fold s1.
    rewrite afterClicksChange_editor, (effect_state env s1 cw Href), Hlen1.
    reflexivity. }
  split; [exact Hrem|]. split; [exact Hne|].
  split; [reflexivity|]. split; [reflexivity|].
  split; [cbn [requestArgs md_clicks]; rewrite Hrem; reflexivity|].
  split; [reflexivity|].
  intros feeds Hmd Hcw. subst cw.
  unfold undo. rewrite Hlen0. fold s1.
  unfold afterClicksChange, Editor_effect. rewrite Href, Hlen1, Hmd. reflexivity.
Qed.

(** C4 (amended).  In edit mode a canvas click at [(x, y)] (client
    coordinates minus the canvas origin) appends the click
    [(x * scale / scaleToFit, y * scale / scaleToFit)], where [scale] is the
    preview scale, to the click list.  The request arguments then carry
    every click of the new list, in order, and the most recent mask of the
    history ([None] on an empty history); with the sandbox mounted and
    [modelData] yielding feeds, the request is posted. *)
Theorem C4_addClick (env : Env) (sess : Session Feeds) (e : MouseEvent) :
  mode (editor sess) = edit ->
  let x := clientX e - rect_left e in
  let y := clientY e - rect_top e in
  let c := {| click_x := (x * previewScale (bitmap env))
                         / scaleToFit (frame env) (bitmap env);
              click_y := (y * previewScale (bitmap env))
                         / scaleToFit (frame env) (bitmap env) |} in
  let s1 := setClicks (clicks (editor sess) ++ [c]) (editor sess) in
  canvasOnClick modelData env sess e = afterClicksChange modelData env sess s1
  /\ md_clicks (requestArgs env s1) = map modelClick_of (clicks (editor sess) ++ [c])
  /\ last_pred_mask (requestArgs env s1) = lastMask (predMasks (editor sess))
  /\ (forall feeds,
        sandboxRef env = Frame true ->
        modelData (requestArgs env s1) = Some feeds ->
        canvasOnClick modelData env sess e =
          (mkSession s1 (pending sess ++
                         [mkPending (S (length (clicks (editor sess))))
                                    (requestArgs env s1) feeds]),
           [Sent (requestArgs env s1)])).
Proof.
  intros Hmode x y c s1.
  assert (Hclick : canvasOnClick modelData env sess e
                   = afterClicksChange modelData env sess s1).
  { unfold canvasOnClick. rewrite Hmode. reflexivity. }
  split; [exact Hclick|]. split; [reflexivity|]. split; [reflexivity|].
  intros feeds Href Hmd. rewrite Hclick.
  assert (Hlen : length (clicks s1) = S (length (clicks (editor sess)))).
  { subst s1. cbn [clicks setClicks]. rewrite length_app. cbn. lia. }
  unfold afterClicksChange, Editor_effect. rewrite Href, Hlen. cbn [Nat.eqb].
  rewrite Hmd. reflexivity.
Qed.

(** The code's way of taking the last mask is the most recent entry of the
    history. *)
Lemma lastMask_mostRecent (masks : list Tensor) : lastMask masks = mostRecent masks.
Proof.
  unfold lastMask, mostRecent.
  destruct masks as [| m ms] using rev_ind.
  - reflexivity.
  - rewrite length_app, map_app. cbn [length map].
    rewrite last_last.
    replace (0 <? length ms + 1)%nat with true
      by (symmetry; apply Nat.ltb_lt; lia).
    replace (length ms + 1 - 1)%nat with (length ms) by lia.
    rewrite nth_error_app2 by lia. rewrite Nat.sub_diag. reflexivity.
Qed.

Lemma historyAfter_app (h : list Tensor) (l1 l2 : list Label) :
  historyAfter h (l1 ++ l2) = historyAfter (historyAfter h l1) l2.
Proof.
  revert h. induction l1 as [| [args | m |] l1 IH]; intros h; cbn; auto.
Qed.

Lemma feedbackFromHistory_app (h : list Tensor) (l1 l2 : list Label) :
  feedbackFromHistory h l1 ->
  feedbackFromHistory (historyAfter h l1) l2 ->
  feedbackFromHistory h (l1 ++ l2).
Proof.
  revert h. induction l1 as [| [args | m |] l1 IH]; intros h H1 H2; cbn in *; auto.
  destruct H1 as [Ha H1]. split; auto.
Qed.

(** One step keeps the log and the mask history in agreement. *)
Lemma step_feedback (env : Env) (sess sess1 : Session Feeds) (ev : Event)
    (l : list Label) :
  step modelData runModel env sess ev = (sess1, l) ->
  feedbackFromHistory (predMasks (editor sess)) l
  /\ predMasks (editor sess1) = historyAfter (predMasks (editor sess)) l.
Proof.
  intros Hstep.
  assert (Hacc : forall s,
            predMasks s = predMasks (editor sess) ->
            afterClicksChange modelData env sess s = (sess1, l) ->
            feedbackFromHistory (predMasks (editor sess)) l
            /\ predMasks (editor sess1) = historyAfter (predMasks (editor sess)) l).
  { intros s Hs Hac.
    destruct (afterClicksChange_cases env sess s)
      as [H | [[_ H] | [feeds [_ [_ [_ H]]]]]];
      rewrite H in Hac; injection Hac as <- <-; cbn.
    - split; [exact I | exact Hs].
    - split; [exact I | reflexivity].
    - rewrite Hs, lastMask_mostRecent. repeat split. }
  destruct ev as [e | | m | b | i]; cbn in Hstep.
  - unfold canvasOnClick in Hstep.
    destruct (negb (mode_eqb (mode (editor sess)) edit)).
    + injection Hstep as <- <-. split; [exact I | reflexivity].
    + eapply Hacc; [|exact Hstep]; reflexivity.
  - unfold undo in Hstep.
    destruct (length (clicks (editor sess)) =? 0)%nat.
    + injection Hstep as <- <-. split; [exact I | reflexivity].
    + eapply Hacc; [|exact Hstep]; reflexivity.
  - injection Hstep as <- <-. split; [exact I | reflexivity].
  - injection Hstep as <- <-. split; [exact I | reflexivity].
  - unfold deliver in Hstep.
    destruct (nth_error (pending sess) i).
    + injection Hstep as <- <-. split; [exact I | reflexivity].
    + injection Hstep as <- <-. split; [exact I | reflexivity].
Qed.

(** C6 (amended).  Along every run, from every session: the mask history
    is what the log says (each received mask appended as it is, the history
    emptied at each clearing, nothing merged), and every request sent
    passes as feedback the most recent mask received since the history was
    last cleared, [None] when there is none. *)
Theorem C6_feedback_from_history (env : Env) (sess : Session Feeds)
    (evs : list Event) :
  feedbackFromHistory (predMasks (editor sess))
                      (snd (run modelData runModel env sess evs))
  /\ predMasks (editor (fst (run modelData runModel env sess evs)))
     = historyAfter (predMasks (editor sess))
                    (snd (run modelData runModel env sess evs)).
Proof.
  revert sess. induction evs as [| ev evs IH]; intros sess; cbn [run].
  - split; [exact I | reflexivity].
  - destruct (step modelData runModel env sess ev) as [sess1 l] eqn:Hstep.
    destruct (step_feedback env sess sess1 ev l Hstep) as [Hf Hh].
    specialize (IH sess1).
    destruct (run modelData runModel env sess1 evs) as [sess2 l2].
    cbn [fst snd] in *. destruct IH as [IHf IHh]. split.
    + apply feedbackFromHistory_app; [exact Hf|]. rewrite <- Hh. exact IHf.
    + rewrite historyAfter_app, <- Hh. exact IHh.
Qed.

End EditorFacts.

(** ** The theorems on the concrete session *)

Lemma C10_preview_click_is_noop_witness :
  Demo.step Demo.env (mkSession (setMode preview initialState) []) Demo.c1
  = (mkSession (setMode preview initialState) [], []).
Proof.
  apply (C10_preview_click_is_noop Demo.modelData Demo.runModel Demo.env
           (mkSession (setMode preview initialState) [])
           (mkMouseEvent 10 20 0 0)).
  reflexivity.
Defined.


(** Two clicks, then the answer to the first request. *)
Lemma C2_every_answer_accepted_witness :
  output (editor (fst (Demo.deliver
                         (fst (Demo.run Demo.env initialSession [Demo.c1; Demo.c2])) 0)))
  = Some (msg_output
            (Demo.runModel
               (requestArgs Demo.env
                  (editor (fst (Demo.run Demo.env initialSession [Demo.c1])))))).
Proof.
  apply (C2_every_answer_accepted Demo.modelData Demo.runModel Demo.env
           (fst (Demo.run Demo.env initialSession [Demo.c1]))
           (fst (Demo.run Demo.env initialSession [Demo.c1; Demo.c2]))
           Demo.c2
           (snd (Demo.step Demo.env
                   (fst (Demo.run Demo.env initialSession [Demo.c1])) Demo.c2))
           0%nat
           (mkPending 1
              (requestArgs Demo.env
                 (editor (fst (Demo.run Demo.env initialSession [Demo.c1]))))
              (requestArgs Demo.env
                 (editor (fst (Demo.run Demo.env initialSession [Demo.c1])))))).
  - reflexivity.
  - reflexivity.
Defined.

(** Two answered clicks, then undo. *)
Lemma C3_undo_keeps_output_and_asks_again_witness :
  output (undoClicks
            (editor (fst (Demo.run Demo.env initialSession
                            [Demo.c1; Deliver 0; Demo.c2; Deliver 0]))))
  = Some Demo.M2.
Proof.
  transitivity
    (output (editor (fst (Demo.run Demo.env initialSession
                            [Demo.c1; Deliver 0; Demo.c2; Deliver 0]))));
    [|reflexivity].
  apply (C3_undo_keeps_output_and_asks_again Demo.modelData Demo.env true
           (fst (Demo.run Demo.env initialSession
                   [Demo.c1; Deliver 0; Demo.c2; Deliver 0]))).
  - reflexivity.
  - vm_compute. lia.
Defined.

Lemma C4_addClick_witness :
  md_clicks
    (requestArgs Demo.env
       (setClicks
          (clicks (editor (@initialSession ModelDataArgs))
           ++ [ {| click_x := ((10 - 0) * previewScale (bitmap Demo.env))
                              / scaleToFit (frame Demo.env) (bitmap Demo.env);
                   click_y := ((20 - 0) * previewScale (bitmap Demo.env))
                              / scaleToFit (frame Demo.env) (bitmap Demo.env) |} ])
          (editor (@initialSession ModelDataArgs))))
  = map modelClick_of
      (clicks (editor (@initialSession ModelDataArgs))
       ++ [ {| click_x := ((10 - 0) * previewScale (bitmap Demo.env))
                          / scaleToFit (frame Demo.env) (bitmap Demo.env);
               click_y := ((20 - 0) * previewScale (bitmap Demo.env))
                          / scaleToFit (frame Demo.env) (bitmap Demo.env) |} ]).
Proof.
  apply (C4_addClick Demo.modelData Demo.env initialSession (mkMouseEvent 10 20 0 0)).
  reflexivity.
Defined.

(** ** Where the code departs from the specification *)

(** C2 (counterexample).  After two clicks the click list has length 2 and
    the first request in flight was sent at length 1; its answer is
    nevertheless accepted: the output, empty before, becomes that answer's
    output. *)
Lemma C2_stale_answer_accepted :
  let s2 := fst (Demo.run Demo.env initialSession [Demo.c1; Demo.c2]) in
  exists p,
    nth_error (pending s2) 0 = Some p
    /\ sent_len p = 1%nat
    /\ length (clicks (editor s2)) = 2%nat
    /\ sent_len p <> length (clicks (editor s2))
    /\ output (editor s2) = None
    /\ output (editor (fst (Demo.deliver s2 0))) = Some Demo.M1.
Proof.
  eexists. split; [reflexivity|].
  repeat split; try reflexivity.
  vm_compute. discriminate.
Qed.

(** C3 (counterexample).  Clicks [c1], [c2], each answered, then undo: the
    click list is the one of the session that only ever sent [c1], but the
    output is still the answer to the two-click request, not the answer to
    the one-click request, and the undo has put a new request in flight. *)
Lemma C3_undo_shows_undone_mask :
  let before := fst (Demo.run Demo.env initialSession
                       [Demo.c1; Deliver 0; Demo.c2; Deliver 0]) in
  let after := fst (Demo.run Demo.env initialSession
                      [Demo.c1; Deliver 0; Demo.c2; Deliver 0; UndoButton]) in
  let short := fst (Demo.run Demo.env initialSession [Demo.c1; Deliver 0]) in
  clicks (editor after) = clicks (editor short)
  /\ output (editor short) = Some Demo.M1
  /\ output (editor after) = Some Demo.M2
  /\ output (editor after) <> output (editor short)
  /\ pending before = []
  /\ length (pending after) = 1%nat.
Proof.
  repeat split; try reflexivity.
  vm_compute. discriminate.
Qed.

(** C4 (counterexample).  On the 1000 x 1000 bitmap in a 1000 x 1000 frame
    (canvas scale 1), the canvas click at (10, 20) is stored as (5, 10),
    the point times the preview scale 1/2, whereas multiplying by
    [uploadScale] would give an abscissa of 10.24. *)
Lemma C4_click_not_upload_scaled :
  let s := fst (Demo.step Demo.env initialSession Demo.c1) in
  exists c,
    clicks (editor s) = [c]
    /\ click_x c == 5
    /\ click_y c == 10
    /\ click_x (toModelInput Demo.env 10 20) == 1024 # 100
    /\ ~ click_x c == click_x (toModelInput Demo.env 10 20).
Proof.
  eexists. split; [reflexivity|].
  repeat split; try reflexivity.
  vm_compute. discriminate.
Qed.

(** C6 (counterexample).  Click, answer, undo, click: a mask has been
    received, yet the request of the second click passes no previous
    mask. *)
Lemma C6_feedback_lost_after_clear :
  ~ feedbackIsLastReceived []
      (snd (Demo.run Demo.env initialSession
              [Demo.c1; Deliver 0; UndoButton; Demo.c1])).
Proof.
  vm_compute. intros [_ [H _]]. discriminate H.
Qed.


(** * Further properties of the code *)

(** ** Scales and extents *)

Lemma Math_min_pos (a b : Z) : (0 < a)%Z -> (0 < b)%Z -> 0 < Math_min a b.
Proof.
  intros Ha Hb. unfold Math_min.
  replace 0 with (inject_Z 0) by reflexivity.
  rewrite <- Zlt_Qlt. lia.
Qed.

Lemma inject_Z_pos (a : Z) : (0 < a)%Z -> 0 < inject_Z a.
Proof.
  intros Ha. replace 0 with (inject_Z 0) by reflexivity.
  rewrite <- Zlt_Qlt. exact Ha.
Qed.

Lemma scaleToFit_pos (fr : FrameSize) (bm : ImageBitmap) :
  (0 < width bm)%Z -> (0 < height bm)%Z ->
  0 < frame_width fr -> 0 < frame_height fr ->
  0 < scaleToFit fr bm.
Proof.
  intros Hw Hh Hfw Hfh. unfold scaleToFit.
  apply Q.min_glb_lt; unfold Qdiv;
    (apply Qmult_lt_0_compat; [assumption|]);
    apply Qinv_lt_0_compat, inject_Z_pos; assumption.
Qed.

Lemma previewScale_pos (bm : ImageBitmap) :
  (0 < width bm)%Z -> (0 < height bm)%Z -> 0 < previewScale bm.
Proof.
  intros Hw Hh. rewrite previewScale_unclamped.
  unfold Qdiv. apply Qmult_lt_0_compat; [reflexivity|].
  apply Qinv_lt_0_compat, Math_min_pos; assumption.
Qed.

(** For a bitmap with positive dimensions the branch guarded by
    [d * scale > 1333] is not taken (the product is the target size 500,
    833 below the ceiling): the preview scale, and with it the [scale]
    entry of [modelScale], is the first assignment [IMAGE_SIZE / d] with
    [d] the smaller side, however long the other side is. *)
Theorem previewScale_never_clamped (bm : ImageBitmap) :
  (0 < width bm)%Z -> (0 < height bm)%Z ->
  gtb (Math_min (width bm) (height bm)
       * (IMAGE_SIZE / Math_min (width bm) (height bm))) 1333 = false
  /\ previewScale bm = IMAGE_SIZE / Math_min (width bm) (height bm)
  /\ ms_scale (modelScale_of bm) = IMAGE_SIZE / Math_min (width bm) (height bm)
  /\ ~ previewScale bm == 1333 / Math_min (width bm) (height bm).
Proof.
  intros Hw Hh.
  pose proof (Math_min_pos _ _ Hw Hh) as Hmin.
  split; [apply guard_never_taken|].
  split; [apply previewScale_unclamped|].
  split; [cbn [modelScale_of ms_scale]; apply previewScale_unclamped|].
  rewrite previewScale_unclamped. intros Heq.
  assert (H : IMAGE_SIZE == 1333).
  { rewrite <- (Qmult_div_r IMAGE_SIZE (Math_min (width bm) (height bm)))
      by (apply Qpos_neq0; exact Hmin).
    rewrite Heq. apply Qmult_div_r, Qpos_neq0. exact Hmin. }
  discriminate H.
Qed.

(** For a bitmap with positive dimensions in a frame with positive sides,
    the click stored by [onMaskClick] is the image point under the canvas
    point, times the preview scale: mapping it back (times [scaleToFit],
    divided by the preview scale) gives the canvas point again, and
    dividing it by [onnxScale] gives the image point times [uploadScale]. *)
Theorem maskClick_round_trip (env : Env) (x y : Q) :
  (0 < width (bitmap env))%Z -> (0 < height (bitmap env))%Z ->
  0 < frame_width (frame env) -> 0 < frame_height (frame env) ->
  let c := maskClick env x y in
  let s2f := scaleToFit (frame env) (bitmap env) in
  click_x c == (x / s2f) * previewScale (bitmap env)
  /\ click_y c == (y / s2f) * previewScale (bitmap env)
  /\ (click_x c * s2f) / previewScale (bitmap env) == x
  /\ (click_y c * s2f) / previewScale (bitmap env) == y
  /\ click_x c / onnxScale (modelScale_of (bitmap env))
     == (x / s2f) * uploadScale (bitmap env)
  /\ click_y c / onnxScale (modelScale_of (bitmap env))
     == (y / s2f) * uploadScale (bitmap env).
Proof.
  intros Hw Hh Hfw Hfh c s2f.
  pose proof (Qpos_neq0 _ (scaleToFit_pos _ _ Hw Hh Hfw Hfh)) as Hs.
  pose proof (Qpos_neq0 _ (previewScale_pos _ Hw Hh)) as Hp.
  pose proof (Qpos_neq0 _ (uploadScale_pos _ Hw Hh)) as Hu.
  subst c s2f. cbn [maskClick click_x click_y modelScale_of onnxScale].
  repeat split; field; auto.
Qed.

Lemma previewScale_never_clamped_witness :
  previewScale (mkBitmap 100 1000) = IMAGE_SIZE / Math_min 100 1000.
Proof.
  apply (previewScale_never_clamped (mkBitmap 100 1000)); reflexivity.
Defined.

Lemma maskClick_round_trip_witness :
  (click_x (maskClick Demo.env 10 20) * scaleToFit (frame Demo.env) (bitmap Demo.env))
  / previewScale (bitmap Demo.env) == 10.
Proof.
  apply (maskClick_round_trip Demo.env 10 20); reflexivity.
Defined.

(** ** Runs of the editor *)

Section EditorRuns.

Context {Feeds : Type}.
Variable modelData : ModelDataArgs -> option Feeds.
Variable runModel : Feeds -> MessageData.

Lemma run_cons (env : Env) (sess : Session Feeds) (ev : Event) (evs : list Event) :
  run modelData runModel env sess (ev :: evs) =
    (fst (run modelData runModel env
            (fst (step modelData runModel env sess ev)) evs),
     snd (step modelData runModel env sess ev)
     ++ snd (run modelData runModel env
               (fst (step modelData runModel env sess ev)) evs)).
Proof.
  cbn [run]. destruct (step modelData runModel env sess ev) as [s1 l1].
  cbn [fst snd]. destruct (run modelData runModel env s1 evs). reflexivity.
Qed.

Lemma afterClicksChange_clicks (env : Env) (sess : Session Feeds) (s : EditorState) :
  clicks (editor (fst (afterClicksChange modelData env sess s))) = clicks s.
Proof.
  rewrite afterClicksChange_editor. apply effect_frame.
Qed.

Lemma afterClicksChange_nonempty (env : Env) (sess : Session Feeds) (s : EditorState) :
  clicks s <> [] ->
  editor (fst (afterClicksChange modelData env sess s)) = s.
Proof.
  intros Hne.
  destruct (afterClicksChange_cases modelData env sess s)
    as [H | [[Hnil _] | [feeds [_ [_ [_ H]]]]]]; try (rewrite H; reflexivity).
  contradiction.
Qed.

Lemma firstn_pred_snoc {A : Type} (l : list A) (a : A) :
  firstn (length (l ++ [a]) - 1) (l ++ [a]) = l.
Proof.
  rewrite length_app. cbn [length].
  replace (length l + 1 - 1)%nat with (length l) by lia.
  rewrite firstn_app, firstn_all, Nat.sub_diag. cbn. apply app_nil_r.
Qed.

(** In edit mode, a canvas click followed by Undo gives back the click
    list; when that list was not empty the whole editor state is the one
    from before the click. *)
Theorem click_undo_round_trip (env : Env) (sess : Session Feeds) (e : MouseEvent) :
  mode (editor sess) = edit ->
  clicks (editor (fst (run modelData runModel env sess [CanvasClick e; UndoButton])))
  = clicks (editor sess)
  /\ (clicks (editor sess) <> [] ->
      editor (fst (run modelData runModel env sess [CanvasClick e; UndoButton]))
      = editor sess).
Proof.
  intros Hmode. rewrite !run_cons. cbn [run fst].
  cbn [step]. unfold canvasOnClick at 1 2. rewrite Hmode. cbn [mode_eqb negb].
  set (s1 := onMaskClick env (clientX e - rect_left e) (clientY e - rect_top e)
               (editor sess)).
  set (sess1 := fst (afterClicksChange modelData env sess s1)).
  assert (Hs1 : editor sess1 = s1).
  { apply afterClicksChange_nonempty. subst s1. cbn.
    intros H. apply app_eq_nil in H. destruct H as [_ H]. discriminate H. }
  assert (Hlen : (length (clicks (editor sess1)) =? 0)%nat = false).
  { rewrite Hs1. subst s1. cbn. rewrite length_app. cbn.
    apply Nat.eqb_neq. lia. }
  unfold undo. rewrite Hlen.
  assert (Hundo : undoClicks (editor sess1) = editor sess).
  { rewrite Hs1. subst s1. unfold undoClicks, onMaskClick. cbn [clicks setClicks].
    rewrite firstn_pred_snoc. destruct (editor sess). reflexivity. }
  split.
  - rewrite afterClicksChange_clicks, Hundo. reflexivity.
  - intros Hne. rewrite afterClicksChange_nonempty; rewrite Hundo; auto.
Qed.

Lemma undo_on_empty (env : Env) (sess : Session Feeds) :
  clicks (editor sess) = [] -> undo modelData env sess = (sess, []).
Proof.
  intros Hnil. unfold undo. rewrite Hnil. reflexivity.
Qed.

Lemma run_undo_on_empty (env : Env) (sess : Session Feeds) (n : nat) :
  clicks (editor sess) = [] ->
  run modelData runModel env sess (repeat UndoButton n) = (sess, []).
Proof.
  intros Hnil. induction n as [| n IH]; [reflexivity|].
  cbn [repeat]. rewrite run_cons. cbn [step].
  rewrite (undo_on_empty env sess Hnil). cbn [fst snd]. rewrite IH. reflexivity.
Qed.

(** With the sandbox mounted, Undo on a non-empty click list drops its last
    click; if that empties the list, output and mask history are empty
    too. *)
Lemma undo_state (env : Env) (cw : bool) (sess : Session Feeds) :
  sandboxRef env = Frame cw ->
  clicks (editor sess) <> [] ->
  clicks (editor (fst (undo modelData env sess)))
  = firstn (length (clicks (editor sess)) - 1) (clicks (editor sess))
  /\ (clicks (editor (fst (undo modelData env sess))) = [] ->
      output (editor (fst (undo modelData env sess))) = None
      /\ predMasks (editor (fst (undo modelData env sess))) = []).
Proof.
  intros Href Hne. unfold undo.
  destruct (length (clicks (editor sess)) =? 0)%nat eqn:Hlen.
  - apply length_zero_nil in Hlen. contradiction.
  - split.
    + rewrite afterClicksChange_clicks. reflexivity.
    + rewrite afterClicksChange_editor, (effect_state modelData env _ cw Href).
      destruct (length (clicks (undoClicks (editor sess))) =? 0)%nat eqn:E.
      * intros _. split; reflexivity.
      * intros Hnil. cbn in Hnil. apply length_zero_nil in Hnil.
        cbn in E. rewrite E in Hnil. discriminate Hnil.
Qed.

(** With the sandbox mounted, pressing Undo at least as many times as there
    are clicks (and there is at least one) leaves an empty click list, no
    output and an empty mask history, whatever was received on the way. *)
Theorem undo_all_clears (env : Env) (cw : bool) (n : nat) (sess : Session Feeds) :
  sandboxRef env = Frame cw ->
  clicks (editor sess) <> [] ->
  (length (clicks (editor sess)) <= n)%nat ->
  clicks (editor (fst (run modelData runModel env sess (repeat UndoButton n)))) = []
  /\ output (editor (fst (run modelData runModel env sess (repeat UndoButton n)))) = None
  /\ predMasks (editor (fst (run modelData runModel env sess (repeat UndoButton n)))) = [].
Proof.
  intros Href. revert sess.
  induction n as [| n IH]; intros sess Hne Hlen.
  - destruct (clicks (editor sess)); [contradiction | cbn in Hlen; lia].
  - cbn [repeat]. rewrite run_cons. cbn [step fst].
    destruct (undo_state env cw sess Href Hne) as [Hclicks Hcleared].
    set (sess1 := fst (undo modelData env sess)) in *.
    destruct (clicks (editor sess1)) as [| c cs] eqn:Hc1.
    + rewrite (run_undo_on_empty env sess1 n Hc1). cbn [fst].
      destruct (Hcleared eq_refl) as [Ho Hp]. repeat split; assumption.
    + apply IH.
      * rewrite Hc1. discriminate.
      * rewrite Hc1, Hclicks, length_firstn. lia.
Qed.

(** A step that sends a request does so from a non-empty click list. *)
Lemma step_sent_clicks (env : Env) (sess sess1 : Session Feeds) (ev : Event)
    (l : list Label) (args : ModelDataArgs) :
  step modelData runModel env sess ev = (sess1, l) ->
  In (Sent args) l ->
  clicks (editor sess1) <> [].
Proof.
  intros Hstep Hin.
  assert (Hacc : forall s,
            afterClicksChange modelData env sess s = (sess1, l) ->
            clicks (editor sess1) <> []).
  { intros s Hs.
    destruct (afterClicksChange_cases modelData env sess s)
      as [H | [[_ H] | [feeds [Hne [_ [_ H]]]]]];
      rewrite H in Hs; injection Hs as <- <-.
    - destruct Hin.
    - destruct Hin as [Hin | []]. discriminate Hin.
    - exact Hne. }
  destruct ev as [e | | m | b | i]; cbn in Hstep.
  - unfold canvasOnClick in Hstep.
    destruct (negb (mode_eqb (mode (editor sess)) edit)).
    + injection Hstep as _ <-. destruct Hin.
    + exact (Hacc _ Hstep).
  - unfold undo in Hstep.
    destruct (length (clicks (editor sess)) =? 0)%nat.
    + injection Hstep as _ <-. destruct Hin.
    + exact (Hacc _ Hstep).
  - injection Hstep as _ <-. destruct Hin.
  - injection Hstep as _ <-. destruct Hin.
  - unfold deliver in Hstep.
    destruct (nth_error (pending sess) i).
    + injection Hstep as _ <-. destruct Hin as [Hin | []]. discriminate Hin.
    + injection Hstep as _ <-. destruct Hin.
Qed.

(** Every request of a run is built from the editor state of some moment
    with a non-empty click list. *)
Lemma run_sent (env : Env) (evs : list Event) (sess : Session Feeds)
    (args : ModelDataArgs) :
  In (Sent args) (snd (run modelData runModel env sess evs)) ->
  exists s, clicks s <> [] /\ args = requestArgs env s.
Proof.
  revert sess. induction evs as [| ev evs IH]; intros sess Hin.
  - destruct Hin.
  - rewrite run_cons in Hin. cbn [snd] in Hin.
    apply in_app_or in Hin. destruct Hin as [Hin | Hin].
    + destruct (step modelData runModel env sess ev) as [sess1 l] eqn:Hstep.
      cbn [snd] in Hin. exists (editor sess1). split.
      * exact (step_sent_clicks env sess sess1 ev l args Hstep Hin).
      * exact (proj1 (step_sent modelData runModel env sess sess1 ev l args Hstep Hin)).
    + exact (IH _ Hin).
Qed.

(** Along every run, no request is ever built from an empty click list, and
    every request carries only foreground clicks without a box
    ([clickType] 1, [width] and [height] null), the editor's tensor and the
    scale profile of its bitmap. *)
Theorem requests_well_formed (env : Env) (sess : Session Feeds) (evs : list Event)
    (args : ModelDataArgs) :
  In (Sent args) (snd (run modelData runModel env sess evs)) ->
  md_clicks args <> []
  /\ Forall (fun mc => clickType mc = 1%Z /\ mc_width mc = None /\ mc_height mc = None)
            (md_clicks args)
  /\ md_tensor args = tensor env
  /\ md_modelScale args = modelScale_of (bitmap env).
Proof.
  intros Hin. destruct (run_sent env evs sess args Hin) as [s [Hne ->]].
  cbn [requestArgs md_clicks md_tensor md_modelScale]. repeat split.
  - intros Hmap. apply map_eq_nil in Hmap. contradiction.
  - apply Forall_forall. intros mc Hmc. apply in_map_iff in Hmc.
    destruct Hmc as [c [<- _]]. repeat split.
Qed.

(** What one step leaves alone, by the kind of event. *)
Lemma step_frame (env : Env) (sess sess1 : Session Feeds) (ev : Event)
    (l : list Label) :
  step modelData runModel env sess ev = (sess1, l) ->
  (isRenderedImage ev = false -> rendered (editor sess1) = rendered (editor sess))
  /\ (isModeButton ev = false -> mode (editor sess1) = mode (editor sess))
  /\ (changesClicks ev = false ->
      clicks (editor sess1) = clicks (editor sess)
      /\ existsb isSent l = false
      /\ existsb isHistoryCleared l = false).
Proof.
  intros Hstep.
  assert (Hacc : forall s,
            afterClicksChange modelData env sess s = (sess1, l) ->
            rendered s = rendered (editor sess) ->
            mode s = mode (editor sess) ->
            rendered (editor sess1) = rendered (editor sess)
            /\ mode (editor sess1) = mode (editor sess)).
  { intros s Hs Hr Hm.
    pose proof (afterClicksChange_editor modelData env sess s) as He.
    rewrite Hs in He. cbn [fst] in He. rewrite He.
    destruct (effect_frame modelData env s) as [_ [Hm' Hr']].
    rewrite Hm', Hr'. split; assumption. }
  assert (Hsame : forall s,
            rendered s = rendered (editor sess) ->
            mode s = mode (editor sess) ->
            clicks s = clicks (editor sess) ->
            forall ev' : Event,
            (isRenderedImage ev' = false -> rendered s = rendered (editor sess))
            /\ (isModeButton ev' = false -> mode s = mode (editor sess))
            /\ (changesClicks ev' = false ->
                clicks s = clicks (editor sess)
                /\ existsb isSent (@nil Label) = false
                /\ existsb isHistoryCleared (@nil Label) = false)).
  { intros s Hr Hm Hc ev'. repeat split; auto. }
  destruct ev as [e | | m | b | i]; cbn in Hstep.
  - unfold canvasOnClick in Hstep.
    destruct (negb (mode_eqb (mode (editor sess)) edit)).
    + injection Hstep as <- <-. apply Hsame; reflexivity.
    + destruct (Hacc _ Hstep eq_refl eq_refl) as [Hr Hm].
      split; [intros _; exact Hr|]. split; [intros _; exact Hm|].
      intros Hf. discriminate Hf.
  - unfold undo in Hstep.
    destruct (length (clicks (editor sess)) =? 0)%nat.
    + injection Hstep as <- <-. apply Hsame; reflexivity.
    + destruct (Hacc _ Hstep eq_refl eq_refl) as [Hr Hm].
      split; [intros _; exact Hr|]. split; [intros _; exact Hm|].
      intros Hf. discriminate Hf.
  - injection Hstep as <- <-.
    split; [intros _; reflexivity|]. split; [intros Hf; discriminate Hf|].
    intros _. repeat split.
  - injection Hstep as <- <-.
    split; [intros Hf; discriminate Hf|]. split; [intros _; reflexivity|].
    intros _. repeat split.
  - unfold deliver in Hstep.
    destruct (nth_error (pending sess) i); injection Hstep as <- <-.
    + split; [intros _; reflexivity|]. split; [intros _; reflexivity|].
      intros _. repeat split.
    + apply Hsame; reflexivity.
Qed.

(** Answers from the model, mode switches and rendered images, in any
    number and order, leave the click list as it is, send no request and
    never clear the mask history: only canvas clicks and Undo do. *)
Theorem only_clicks_and_undo_send (env : Env) (evs : list Event)
    (sess : Session Feeds) :
  forallb (fun ev => negb (changesClicks ev)) evs = true ->
  clicks (editor (fst (run modelData runModel env sess evs))) = clicks (editor sess)
  /\ existsb isSent (snd (run modelData runModel env sess evs)) = false
  /\ existsb isHistoryCleared (snd (run modelData runModel env sess evs)) = false.
Proof.
  revert sess. induction evs as [| ev evs IH]; intros sess Hall.
  - repeat split.
  - cbn [forallb] in Hall. apply andb_true_iff in Hall. destruct Hall as [Hev Hall].
    apply negb_true_iff in Hev.
    rewrite run_cons. cbn [fst snd].
    destruct (step modelData runModel env sess ev) as [sess1 l] eqn:Hstep.
    destruct (step_frame env sess sess1 ev l Hstep) as [_ [_ Hc]].
    destruct (Hc Hev) as [Hclicks [Hsent Hclr]].
    destruct (IH sess1 Hall) as [IHc [IHs IHh]]. cbn [fst snd].
    rewrite !existsb_app, Hsent, Hclr, IHs, IHh, IHc, Hclicks. repeat split.
Qed.

(** The rendered image handed to Copy and Download changes only when the
    renderer reports one: no click, undo, answer or mode switch resets it,
    so it outlives the selection it was rendered from.  Likewise the mode
    changes only through the mode buttons. *)
Theorem rendered_and_mode_frame (env : Env) (evs : list Event)
    (sess : Session Feeds) :
  (forallb (fun ev => negb (isRenderedImage ev)) evs = true ->
   rendered (editor (fst (run modelData runModel env sess evs)))
   = rendered (editor sess)
   /\ copyButton (editor (fst (run modelData runModel env sess evs)))
      = copyButton (editor sess)
   /\ downloadButton (editor (fst (run modelData runModel env sess evs)))
      = downloadButton (editor sess))
  /\ (forallb (fun ev => negb (isModeButton ev)) evs = true ->
      mode (editor (fst (run modelData runModel env sess evs))) = mode (editor sess)).
Proof.
  revert sess. induction evs as [| ev evs IH]; intros sess.
  - repeat split.
  - rewrite run_cons. cbn [fst forallb].
    destruct (step modelData runModel env sess ev) as [sess1 l] eqn:Hstep.
    destruct (step_frame env sess sess1 ev l Hstep) as [Hr [Hm _]].
    destruct (IH sess1) as [IHr IHm]. cbn [fst]. split.
    + intros Hall. apply andb_true_iff in Hall. destruct Hall as [Hev Hall].
      apply negb_true_iff in Hev.
      unfold copyButton, downloadButton in *.
      destruct (IHr Hall) as [-> _]. rewrite (Hr Hev). repeat split.
    + intros Hall. apply andb_true_iff in Hall. destruct Hall as [Hev Hall].
      apply negb_true_iff in Hev.
      rewrite (IHm Hall). exact (Hm Hev).
Qed.

End EditorRuns.

(** ** Passes of the renderer *)

(** Case analysis along the branches of [Renderer_effect]. *)
Ltac renderer_cases :=
  unfold Renderer_effect; cbv zeta;
  repeat match goal with
         | |- context [match ?x with _ => _ end] => destruct x eqn:?
         | H : context [match ?x with _ => _ end] |- _ => destruct x eqn:?
         end.

(** Whenever a pass exports an image, there is a tensor whose trace
    succeeded, nothing was thrown, and the exported image is the cutout of
    the very path filled on the canvas (the image with the path filled in
    opaque black under [destination-in], at scale
    [canvasScale * svgScale]), never the blue overlay: in edit mode it is
    painted on a canvas of its own, in preview mode it is the visible
    canvas, cleared over the element's size first. *)
Theorem exported_is_cutout (threshold : Q) (canvas : HTMLCanvasElement)
    (tensor : option Tensor) (image : ImageBitmap) (canvasScale svgScale : Q)
    (mode : Mode) (b : Blob) :
  let pass :=
    Renderer_effect threshold canvas tensor image canvasScale svgScale mode in
  exported pass = Some b ->
  exists t path,
    tensor = Some t
    /\ Contour.traceOnnxMaskToSVG_opt threshold (data t)
         (nth_error (dims t) 1) (nth_error (dims t) 0) = inr path
    /\ thrown pass = None
    /\ In (Fill path) (canvas_ops pass)
    /\ existsb is_overlay_blend b = false
    /\ ((mode = edit
         /\ b = cutout image canvasScale (canvasScale * svgScale) path)
        \/ (mode = preview
            /\ b = canvas_ops pass
            /\ b = [ Save;
                     ClearRect 0 0 (inject_Z (canvas_width canvas))
                                   (inject_Z (canvas_height canvas)) ]
                   ++ cutout image canvasScale (canvasScale * svgScale) path
                   ++ [Restore])).
Proof.
  intros pass. subst pass. unfold Renderer_effect. cbv zeta.
  destruct tensor as [t |]; [|intros Hb; discriminate Hb].
  destruct (Contour.traceOnnxMaskToSVG_opt threshold (data t)
              (nth_error (dims t) 1) (nth_error (dims t) 0)) as [err | path] eqn:Htr;
    [intros Hb; discriminate Hb|].
  destruct mode; cbn [exported thrown canvas_ops]; intros Hb; injection Hb as <-;
    exists t, path;
    (split; [reflexivity|]); (split; [exact Htr|]); (split; [reflexivity|]);
    (split; [cbn; tauto|]); (split; [reflexivity|]).
  - left. split; reflexivity.
  - right. repeat split.
Qed.

(** When the tensor's trace succeeds, the pass throws nothing, fills the
    traced path on the visible canvas exactly once, at scale
    [canvasScale * svgScale], and exports an image: in edit mode the fill
    is the blue [color-dodge] overlay and the export is the cutout painted
    apart; in preview mode the fill is the cutout itself and the export is
    the visible canvas.  Conversely the overlay is on the canvas only in
    edit mode, and a pass fills only when a trace succeeded. *)
Theorem traced_path_is_filled (threshold : Q) (canvas : HTMLCanvasElement)
    (tensor : option Tensor) (image : ImageBitmap) (canvasScale svgScale : Q)
    (mode : Mode) :
  let pass :=
    Renderer_effect threshold canvas tensor image canvasScale svgScale mode in
  let scale := canvasScale * svgScale in
  (forall t path,
     tensor = Some t ->
     Contour.traceOnnxMaskToSVG_opt threshold (data t)
       (nth_error (dims t) 1) (nth_error (dims t) 0) = inr path ->
     thrown pass = None
     /\ filter is_fill (canvas_ops pass) = [Fill path]
     /\ (exists before,
           canvas_ops pass =
             before
             ++ [ SetTransform scale 0 0 scale 0 0;
                  FillStyle (match mode with
                             | edit => "rgba(0, 0, 255, 0.4)"
                             | preview => "rgba(0, 0, 0, 1)"
                             end);
                  GlobalCompositeOperation (match mode with
                                            | edit => "color-dodge"
                                            | preview => "destination-in"
                                            end);
                  Fill path;
                  Restore ])
     /\ exported pass
        = Some (match mode with
                | edit => cutout image canvasScale scale path
                | preview => canvas_ops pass
                end)
     /\ (existsb is_overlay_blend (canvas_ops pass) = true <-> mode = edit))
  /\ (existsb is_overlay_blend (canvas_ops pass) = true -> mode = edit)
  /\ (existsb is_fill (canvas_ops pass) = true ->
      exists t path,
        tensor = Some t
        /\ Contour.traceOnnxMaskToSVG_opt threshold (data t)
             (nth_error (dims t) 1) (nth_error (dims t) 0) = inr path).
Proof.
  intros pass scale. subst pass scale. unfold Renderer_effect. cbv zeta.
  split; [|split].
  - intros t path -> ->.
    destruct mode; cbn [exported thrown canvas_ops];
      (split; [reflexivity|]); (split; [reflexivity|]);
      (split;
       [ exists [ Save;
                  ClearRect 0 0 (inject_Z (canvas_width canvas))
                                (inject_Z (canvas_height canvas));
                  SetTransform canvasScale 0 0 canvasScale 0 0;
                  DrawImage image 0 0 ];
         reflexivity |]);
      (split; [reflexivity|]); split; intros H; try reflexivity;
      discriminate H.
  - destruct tensor as [t |]; [|intros H; discriminate H].
    destruct (Contour.traceOnnxMaskToSVG_opt threshold (data t)
                (nth_error (dims t) 1) (nth_error (dims t) 0));
      [intros H; discriminate H|].
    destruct mode; intros H; [reflexivity | discriminate H].
  - destruct tensor as [t |]; [|intros H; discriminate H].
    destruct (Contour.traceOnnxMaskToSVG_opt threshold (data t)
                (nth_error (dims t) 1) (nth_error (dims t) 0)) as [err | path] eqn:Htr;
      [intros H; discriminate H|].
    intros _. exists t, path. split; [reflexivity | exact Htr].
Qed.

(** A pass in which nothing is thrown saves the context once and restores
    it once, as its last operation; a pass in which tracing fails leaves
    the context saved. *)
Theorem renderer_save_restore (threshold : Q) (canvas : HTMLCanvasElement)
    (tensor : option Tensor) (image : ImageBitmap) (canvasScale svgScale : Q)
    (mode : Mode) :
  let pass :=
    Renderer_effect threshold canvas tensor image canvasScale svgScale mode in
  count_op is_save (canvas_ops pass) = 1%nat
  /\ (thrown pass = None ->
      count_op is_restore (canvas_ops pass) = 1%nat
      /\ last (canvas_ops pass) Save = Restore)
  /\ (thrown pass <> None ->
      count_op is_restore (canvas_ops pass) = 0%nat
      /\ exported pass = None).
Proof.
  intros pass. subst pass.
  renderer_cases; cbn [exported thrown canvas_ops];
    (split; [reflexivity|]); split; intros H;
    try discriminate H; try (exfalso; apply H; reflexivity);
    split; reflexivity.
Qed.

(** ** The further properties on concrete inputs *)

Lemma click_undo_round_trip_witness :
  clicks (editor (fst (Demo.run Demo.env
                         (fst (Demo.run Demo.env initialSession [Demo.c1]))
                         [Demo.c2; UndoButton])))
  = clicks (editor (fst (Demo.run Demo.env initialSession [Demo.c1]))).
Proof.
  apply (click_undo_round_trip Demo.modelData Demo.runModel Demo.env
           (fst (Demo.run Demo.env initialSession [Demo.c1]))
           (mkMouseEvent 30 40 0 0)).
  reflexivity.
Defined.


(** Two clicks, both answered, then three presses of Undo. *)
Lemma undo_all_clears_witness :
  output (editor (fst (Demo.run Demo.env initialSession
                         [Demo.c1; Deliver 0; Demo.c2; Deliver 0]))) = Some Demo.M2
  /\ output (editor (fst (Demo.run Demo.env
                            (fst (Demo.run Demo.env initialSession
                                    [Demo.c1; Deliver 0; Demo.c2; Deliver 0]))
                            (repeat UndoButton 3)))) = None.
Proof.
  split; [reflexivity|].
  apply (undo_all_clears Demo.modelData Demo.runModel Demo.env true 3
           (fst (Demo.run Demo.env initialSession
                   [Demo.c1; Deliver 0; Demo.c2; Deliver 0]))).
  - reflexivity.
  - vm_compute. discriminate.
  - vm_compute. lia.
Defined.

Lemma requests_well_formed_witness :
  md_clicks (requestArgs Demo.env
               (editor (fst (Demo.run Demo.env initialSession [Demo.c1])))) <> [].
Proof.
  apply (requests_well_formed Demo.modelData Demo.runModel Demo.env
           initialSession [Demo.c1; Demo.c2]
           (requestArgs Demo.env
              (editor (fst (Demo.run Demo.env initialSession [Demo.c1]))))).
  vm_compute. left. reflexivity.
Defined.

Lemma only_clicks_and_undo_send_witness :
  clicks (editor (fst (Demo.run Demo.env
                         (fst (Demo.run Demo.env initialSession [Demo.c1; Demo.c2]))
                         [Deliver 1; ModeButton preview; Deliver 0])))
  = clicks (editor (fst (Demo.run Demo.env initialSession [Demo.c1; Demo.c2]))).
Proof.
  apply (only_clicks_and_undo_send Demo.modelData Demo.runModel Demo.env
           [Deliver 1; ModeButton preview; Deliver 0]
           (fst (Demo.run Demo.env initialSession [Demo.c1; Demo.c2]))).
  reflexivity.
Defined.

(** A rendered image reported once stays available to Copy through clicks,
    answers, mode switches and undo. *)
Lemma rendered_and_mode_frame_witness :
  copyButton (editor (fst (Demo.run Demo.env
                             (mkSession (setRendered (Some [Save]) initialState) [])
                             [Demo.c1; Deliver 0; ModeButton preview; UndoButton])))
  = Some [Save].
Proof.
  apply (rendered_and_mode_frame Demo.modelData Demo.runModel Demo.env
           [Demo.c1; Deliver 0; ModeButton preview; UndoButton]
           (mkSession (setRendered (Some [Save]) initialState) [])).
  reflexivity.
Defined.

(** A 2 x 2 grid with one pixel above the threshold, in edit mode. *)
Lemma exported_is_cutout_witness :
  exists t path,
    Some (mkTensor [0; 1; 0; 0] [2; 2]%Z) = Some t
    /\ In (Fill path)
          (canvas_ops (Renderer_effect (1 # 2) (mkCanvas 2 2)
                         (Some (mkTensor [0; 1; 0; 0] [2; 2]%Z))
                         (mkBitmap 2 2) 1 1 edit)).
Proof.
  destruct (exported_is_cutout (1 # 2) (mkCanvas 2 2)
              (Some (mkTensor [0; 1; 0; 0] [2; 2]%Z))
              (mkBitmap 2 2) 1 1 edit
              (cutout (mkBitmap 2 2) 1 (1 * 1)
                 [ Contour.MoveTo (inject_Z 1 * 1) (inject_Z 0 * 1);
                   Contour.LineTo (inject_Z 2 * 1) (inject_Z 0 * 1);
                   Contour.LineTo (inject_Z 2 * 1) (inject_Z 1 * 1);
                   Contour.LineTo (inject_Z 1 * 1) (inject_Z 1 * 1);
                   Contour.ClosePath ])
              eq_refl) as [t [path [Ht [_ [_ [Hin _]]]]]].
  exists t, path. split; [exact Ht | exact Hin].
Defined.

(** The same grid: the traced square is filled once. *)
Lemma traced_path_is_filled_witness :
  filter is_fill
    (canvas_ops (Renderer_effect (1 # 2) (mkCanvas 2 2)
                   (Some (mkTensor [0; 1; 0; 0] [2; 2]%Z))
                   (mkBitmap 2 2) 1 1 preview))
  = [ Fill [ Contour.MoveTo (inject_Z 1 * 1) (inject_Z 0 * 1);
             Contour.LineTo (inject_Z 2 * 1) (inject_Z 0 * 1);
             Contour.LineTo (inject_Z 2 * 1) (inject_Z 1 * 1);
             Contour.LineTo (inject_Z 1 * 1) (inject_Z 1 * 1);
             Contour.ClosePath ] ].
Proof.
  apply (proj1 (traced_path_is_filled (1 # 2) (mkCanvas 2 2)
                  (Some (mkTensor [0; 1; 0; 0] [2; 2]%Z))
                  (mkBitmap 2 2) 1 1 preview)
           (mkTensor [0; 1; 0; 0] [2; 2]%Z)
           [ Contour.MoveTo (inject_Z 1 * 1) (inject_Z 0 * 1);
             Contour.LineTo (inject_Z 2 * 1) (inject_Z 0 * 1);
             Contour.LineTo (inject_Z 2 * 1) (inject_Z 1 * 1);
             Contour.LineTo (inject_Z 1 * 1) (inject_Z 1 * 1);
             Contour.ClosePath ]
           eq_refl eq_refl).
Defined.
